(** * XR data retriever: the compliance gate of [UCN_XRDataRetriever]

    Shallow embedding of
    [Source/CyberNano/XRRetrieval/ACN_XRDataRetriever.cpp] and of the class
    declaration in [ACN_XRDataRetriever.h].

    The component has two methods, [PullXRHostSnapshot] and
    [PullXRCorridorEnvelope].  Each builds a request, hands it together with
    a default-constructed response to the static bridge function
    [UCyberNanoRustBridge::SendXRRequest], and copies one field of the
    response into the caller's out-parameter when the bridge reported
    success and the response carries [bCompliant].

    The bridge is an external collaborator: a method body is a program that
    may perform the single effect "call SendXRRequest", and it is run
    against an arbitrary transport that owns its own state. *)

From Stdlib Require Import String List Bool.
Import ListNotations.
Local Open Scope string_scope.

(** ** Data model *)

(** [enum class ECyberNanoXRAction]: the two enumerators the methods use. *)
Module ECyberNanoXRAction.
Inductive t : Type :=
| HostSnapshot
| CorridorEnvelope.
End ECyberNanoXRAction.

(** [FCyberNanoXRRequest]: the fields the methods assign.  [FString] is
    modelled by [string]. *)
Record FCyberNanoXRRequest : Type := {
  Action : ECyberNanoXRAction.t;
  HostId : string;
  SessionId : string
}.

Definition set_Action (a : ECyberNanoXRAction.t) (Req : FCyberNanoXRRequest)
  : FCyberNanoXRRequest :=
  {| Action := a; HostId := HostId Req; SessionId := SessionId Req |}.

Definition set_HostId (s : string) (Req : FCyberNanoXRRequest)
  : FCyberNanoXRRequest :=
  {| Action := Action Req; HostId := s; SessionId := SessionId Req |}.

Definition set_SessionId (s : string) (Req : FCyberNanoXRRequest)
  : FCyberNanoXRRequest :=
  {| Action := Action Req; HostId := HostId Req; SessionId := s |}.

(** The identifier a request carries for its action (the spec's
    [targetId]). *)
Definition targetId (Req : FCyberNanoXRRequest) : string :=
  match Action Req with
  | ECyberNanoXRAction.HostSnapshot => HostId Req
  | ECyberNanoXRAction.CorridorEnvelope => SessionId Req
  end.

Section Retriever.

(** The payload structures [FXRHostSnapshot] and [FXRSessionEnvelope] are
    declared in [CN_XRTypes.h]; the methods only copy them, so they are
    kept abstract. *)
Variable FXRHostSnapshot : Type.
Variable FXRSessionEnvelope : Type.

(** The state of the component object itself ([this]): whatever
    [UActorComponent] carries.  The class adds no data member. *)
Variable UCN_XRDataRetriever : Type.

(** [FCyberNanoXRResponse]: the compliance flag and the two payload
    fields, held by value (line 23 assigns [Res.HostSnapshot] to an
    [FXRHostSnapshot&], line 45 likewise for the envelope). *)
Record FCyberNanoXRResponse : Type := {
  bCompliant : bool;
  HostSnapshot : FXRHostSnapshot;
  SessionEnvelope : FXRSessionEnvelope
}.

(** What the default constructors produce for [FCyberNanoXRRequest Req;]
    (lines 8, 31) and [FCyberNanoXRResponse Res;] (lines 12, 35).  The
    struct declarations live in [CyberNanoRustBridge.h]. *)
Variable DefaultRequest : FCyberNanoXRRequest.
Variable DefaultResponse : FCyberNanoXRResponse.

(** ** Programs over the bridge

    A method body either returns, or calls
    [UCyberNanoRustBridge::SendXRRequest(Req, Res)] and continues with
    the boolean the bridge returned and the response object as the bridge
    left it. *)
Inductive Bridge (R : Type) : Type :=
| Return (r : R)
| SendXRRequest (Req : FCyberNanoXRRequest) (Res : FCyberNanoXRResponse)
                (k : bool -> FCyberNanoXRResponse -> Bridge R).

Arguments Return {R} r.
Arguments SendXRRequest {R} Req Res k.

(** What a method hands back: the returned [bool], the out-parameter as
    it stands at return, and the component object. *)
Record Pulled (P : Type) : Type := {
  returned : bool;
  out : P;
  self : UCN_XRDataRetriever
}.

Arguments returned {P} p.
Arguments out {P} p.
Arguments self {P} p.

(** ** The two methods *)

(** [UCN_XRDataRetriever::PullXRHostSnapshot], lines 4-25. *)
Definition PullXRHostSnapshot (this : UCN_XRDataRetriever)
    (HostID : string) (OutSnapshot : FXRHostSnapshot)
  : Bridge (Pulled FXRHostSnapshot) :=
  let Req := DefaultRequest in
  let Req := set_Action ECyberNanoXRAction.HostSnapshot Req in
  let Req := set_HostId HostID Req in
  let Res := DefaultResponse in
  SendXRRequest Req Res (fun sent Res =>
    if negb sent then
      Return {| returned := false; out := OutSnapshot; self := this |}
    else if negb (bCompliant Res) then
      Return {| returned := false; out := OutSnapshot; self := this |}
    else
      let OutSnapshot := HostSnapshot Res in
      Return {| returned := true; out := OutSnapshot; self := this |}).

(** [UCN_XRDataRetriever::PullXRCorridorEnvelope], lines 27-47. *)
Definition PullXRCorridorEnvelope (this : UCN_XRDataRetriever)
    (SessionID : string) (OutEnvelope : FXRSessionEnvelope)
  : Bridge (Pulled FXRSessionEnvelope) :=
  let Req := DefaultRequest in
  let Req := set_Action ECyberNanoXRAction.CorridorEnvelope Req in
  let Req := set_SessionId SessionID Req in
  let Res := DefaultResponse in
  SendXRRequest Req Res (fun sent Res =>
    if negb sent then
      Return {| returned := false; out := OutEnvelope; self := this |}
    else if negb (bCompliant Res) then
      Return {| returned := false; out := OutEnvelope; self := this |}
    else
      let OutEnvelope := SessionEnvelope Res in
      Return {| returned := true; out := OutEnvelope; self := this |}).

(** ** Running a program against a transport

    A transport owns a state of its own and answers a call with the
    boolean, the response object as it leaves it, and its next state. *)
Record Transport : Type := {
  World : Type;
  send : FCyberNanoXRRequest -> FCyberNanoXRResponse -> World ->
         bool * FCyberNanoXRResponse * World
}.

(** The result of a run: the program's value, the requests that reached
    the transport (oldest first) and the transport's final state. *)
Record Run (T : Transport) (R : Type) : Type := {
  value : R;
  requests : list FCyberNanoXRRequest;
  world : World T
}.

Arguments value {T R} r.
Arguments requests {T R} r.
Arguments world {T R} r.

Fixpoint exec (T : Transport) {R : Type} (p : Bridge R) (w : World T)
  : Run T R :=
  match p with
  | Return r => {| value := r; requests := []; world := w |}
  | SendXRRequest Req Res k =>
      let '(sent, Res', w') := send T Req Res w in
      let rest := exec T (k sent Res') w' in
      {| value := value rest;
         requests := Req :: requests rest;
         world := world rest |}
  end.

(** The answer the transport gives to one call, without its next
    state. *)
Definition answer (T : Transport) (w : World T)
    (Req : FCyberNanoXRRequest) (Res : FCyberNanoXRResponse)
  : bool * FCyberNanoXRResponse :=
  fst (send T Req Res w).

(** The requests the two methods build (lines 8-10 and 31-33). *)
Definition host_request (HostID : string) : FCyberNanoXRRequest :=
  set_HostId HostID
    (set_Action ECyberNanoXRAction.HostSnapshot DefaultRequest).

Definition corridor_request (SessionID : string) : FCyberNanoXRRequest :=
  set_SessionId SessionID
    (set_Action ECyberNanoXRAction.CorridorEnvelope DefaultRequest).

(** ** What the transport delivers *)

(** Modelled from the spec: the [RetrievalResponse] of the data model
    (section 3), whose payload fields are optional.  It describes what
    the transport of section 6 returns; the bridge declaration
    ([CyberNanoRustBridge.h]) is not among the source files. *)
Record RetrievalResponse : Type := {
  compliant : bool;
  hostSnapshot : option FXRHostSnapshot;
  sessionEnvelope : option FXRSessionEnvelope
}.

(** Modelled from the spec: how a delivered response shows in the
    [FCyberNanoXRResponse] the method passed by reference.  The bridge
    stores the flag and the payloads that are present; a payload that is
    absent leaves its field as the caller constructed it. *)
Definition store (r : RetrievalResponse) (Res : FCyberNanoXRResponse)
  : FCyberNanoXRResponse :=
  {| bCompliant := compliant r;
     HostSnapshot := match hostSnapshot r with
                     | Some s => s
                     | None => HostSnapshot Res
                     end;
     SessionEnvelope := match sessionEnvelope r with
                        | Some e => e
                        | None => SessionEnvelope Res
                        end |}.

(** The exchange succeeded and delivered [r]. *)
Definition delivers (T : Transport) (w : World T)
    (Req : FCyberNanoXRRequest) (Res : FCyberNanoXRResponse)
    (r : RetrievalResponse) : Prop :=
  answer T w Req Res = (true, store r Res).

(** The exchange failed: [SendXRRequest] returned [false]. *)
Definition fails (T : Transport) (w : World T)
    (Req : FCyberNanoXRRequest) (Res : FCyberNanoXRResponse) : Prop :=
  fst (answer T w Req Res) = false.

(** What one exchange amounts to at the level of the spec: a failure
    ([None]) or a delivered response. *)
Definition outcome (T : Transport) (w : World T)
    (Req : FCyberNanoXRRequest) (Res : FCyberNanoXRResponse)
    (o : option RetrievalResponse) : Prop :=
  match o with
  | Some r => delivers T w Req Res r
  | None => fails T w Req Res
  end.

(** Modelled from the spec: the failure causes of section 7 that arise
    once a request has been sent. *)
Inductive Cause : Type :=
| TransportFailure
| NonCompliant
| MalformedResponse.

(** Modelled from the spec: the cause section 4.1 assigns to an exchange
    for the operation whose payload is [payload] ([None]: the exchange is
    a success). *)
Definition cause_of {P : Type} (payload : RetrievalResponse -> option P)
    (o : option RetrievalResponse) : option Cause :=
  match o with
  | None => Some TransportFailure
  | Some r =>
      if negb (compliant r) then Some NonCompliant
      else match payload r with
           | None => Some MalformedResponse
           | Some _ => None
           end
  end.

(** A transport that picks its answer from the request alone ([None]: the
    exchange fails) and counts the calls it served. *)
Definition answering
    (f : FCyberNanoXRRequest -> option RetrievalResponse) : Transport :=
  {| World := nat;
     send := fun Req Res n =>
       match f Req with
       | Some r => (true, store r Res, S n)
       | None => (false, Res, S n)
       end |}.

(** A transport that answers every call the same way. *)
Definition scripted (o : option RetrievalResponse) : Transport :=
  answering (fun _ => o).

(** What the caller can observe of a call: the returned [bool] and the
    out-parameter. *)
Definition observable {P : Type} (p : Pulled P) : bool * P :=
  (returned p, out p).

(** ** Successive calls *)

(** One program after another, as a caller's statements follow each
    other: the second receives what the first handed back. *)
Fixpoint bind {A B : Type} (p : Bridge A) (k : A -> Bridge B) : Bridge B :=
  match p with
  | Return a => k a
  | SendXRRequest Req Res c =>
      SendXRRequest Req Res (fun sent Res' => bind (c sent Res') k)
  end.

(** A transport that works through a list of exchanges, one per call, and
    fails once the list is used up. *)
Definition replaying : Transport :=
  {| World := list (option RetrievalResponse);
     send := fun _ Res l =>
       match l with
       | Some r :: l' => (true, store r Res, l')
       | None :: l' => (false, Res, l')
       | [] => (false, Res, [])
       end |}.

End Retriever.

Arguments Return {_ _ _} _.
Arguments SendXRRequest {_ _ _} _ _ _.
Arguments returned {_ _} _.
Arguments out {_ _} _.
Arguments self {_ _} _.
Arguments bCompliant {_ _} _.
Arguments HostSnapshot {_ _} _.
Arguments SessionEnvelope {_ _} _.
Arguments compliant {_ _} _.
Arguments hostSnapshot {_ _} _.
Arguments sessionEnvelope {_ _} _.
Arguments World {_ _} _.
Arguments send {_ _} _ _ _ _.
Arguments value {_ _ _ _} _.
Arguments requests {_ _ _ _} _.
Arguments world {_ _ _ _} _.
Arguments exec {_ _} _ {_} _ _.
Arguments answer {_ _} _ _ _ _.
Arguments store {_ _} _ _.
Arguments delivers {_ _} _ _ _ _ _.
Arguments fails {_ _} _ _ _ _.
Arguments answering {_ _} _.
Arguments scripted {_ _} _.
Arguments outcome {_ _} _ _ _ _ _.
Arguments cause_of {_ _ _} _ _.
Arguments observable {_ _} _.
Arguments bind {_ _ _ _} _ _.
Arguments replaying {_ _}.
Arguments PullXRHostSnapshot {_ _ _} _ _ _ _ _.
Arguments PullXRCorridorEnvelope {_ _ _} _ _ _ _ _.

(** ** A concrete instance

    Payloads, default constructors and canned responses used to run the
    methods on explicit inputs. *)
Module Bench.

(** A host snapshot holding a temperature in tenths of a degree, a
    session envelope holding a label, and a component whose inherited
    state is a tick count. *)
Definition Snapshot : Type := nat.
Definition Envelope : Type := string.
Definition Component : Type := nat.

Definition Req0 : FCyberNanoXRRequest :=
  {| Action := ECyberNanoXRAction.HostSnapshot;
     HostId := "";
     SessionId := "" |}.

Definition Res0 : FCyberNanoXRResponse Snapshot Envelope :=
  {| bCompliant := false; HostSnapshot := 0; SessionEnvelope := "" |}.

Definition pullHost (this : Component) :=
  PullXRHostSnapshot Req0 Res0 this.

Definition pullCorridor (this : Component) :=
  PullXRCorridorEnvelope Req0 Res0 this.

(** Canned transport behaviours. *)
Definition compliant_snapshot : RetrievalResponse Snapshot Envelope :=
  {| compliant := true; hostSnapshot := Some 215; sessionEnvelope := None |}.

Definition compliant_envelope : RetrievalResponse Snapshot Envelope :=
  {| compliant := true;
     hostSnapshot := None;
     sessionEnvelope := Some "corridor-A" |}.

Definition compliant_empty : RetrievalResponse Snapshot Envelope :=
  {| compliant := true; hostSnapshot := None; sessionEnvelope := None |}.

Definition non_compliant : RetrievalResponse Snapshot Envelope :=
  {| compliant := false; hostSnapshot := None; sessionEnvelope := None |}.

Definition non_compliant_loaded : RetrievalResponse Snapshot Envelope :=
  {| compliant := false;
     hostSnapshot := Some 999;
     sessionEnvelope := Some "unsafe" |}.

(** The exchange that fails. *)
Definition failed_exchange : option (RetrievalResponse Snapshot Envelope) :=
  None.

(** A service that answers each action with its own payload. *)
Definition service : Transport Snapshot Envelope :=
  answering (fun Req =>
    match Action Req with
    | ECyberNanoXRAction.HostSnapshot => Some compliant_snapshot
    | ECyberNanoXRAction.CorridorEnvelope => Some compliant_envelope
    end).

(** A compliant response that carries both payloads. *)
Definition compliant_both : RetrievalResponse Snapshot Envelope :=
  {| compliant := true;
     hostSnapshot := Some 215;
     sessionEnvelope := Some "corridor-A" |}.

(** A bridge that reports failure after it has filled the response. *)
Definition failing_loaded : Transport Snapshot Envelope :=
  {| World := nat;
     send := fun _ _ n =>
       (false,
        {| bCompliant := true;
           HostSnapshot := 999;
           SessionEnvelope := "unsafe" |},
        S n) |}.

(** A service that fails once and then answers. *)
Definition then_compliant
  : list (option (RetrievalResponse Snapshot Envelope)) :=
  [None; Some compliant_both].

(** A service whose first answer is compliant and whose second is not. *)
Definition then_non_compliant
  : list (option (RetrievalResponse Snapshot Envelope)) :=
  [Some compliant_both; Some non_compliant_loaded].

End Bench.

(** ** The gate, run against an arbitrary transport *)

Section Gate.

Context {FXRHostSnapshot FXRSessionEnvelope UCN_XRDataRetriever : Type}.
Variable DefaultRequest : FCyberNanoXRRequest.
Variable DefaultResponse :
  FCyberNanoXRResponse FXRHostSnapshot FXRSessionEnvelope.

Local Abbreviation Transport := (Transport FXRHostSnapshot FXRSessionEnvelope).
Local Abbreviation Res0 := DefaultResponse.
Local Abbreviation hostReq := (host_request DefaultRequest).
Local Abbreviation corridorReq := (corridor_request DefaultRequest).
Local Abbreviation pullHost :=
  (PullXRHostSnapshot (UCN_XRDataRetriever := UCN_XRDataRetriever)
     DefaultRequest DefaultResponse).
Local Abbreviation pullCorridor :=
  (PullXRCorridorEnvelope (UCN_XRDataRetriever := UCN_XRDataRetriever)
     DefaultRequest DefaultResponse).

(** *** One call, unfolded *)

Lemma exec_PullXRHostSnapshot (T : Transport) (w : World T)
    (this : UCN_XRDataRetriever) (HostID : string)
    (OutSnapshot : FXRHostSnapshot) :
  exec T (pullHost this HostID OutSnapshot) w =
  {| value :=
       let '(sent, Res) := answer T w (hostReq HostID) Res0 in
       if sent && bCompliant Res
       then {| returned := true; out := HostSnapshot Res; self := this |}
       else {| returned := false; out := OutSnapshot; self := this |};
     requests := [hostReq HostID];
     world := snd (send T (hostReq HostID) Res0 w) |}.
Proof.
  unfold PullXRHostSnapshot, answer, host_request; cbn.
  destruct (send T _ _ w) as [[sent Res] w']; cbn.
  destruct sent; cbn; [destruct (bCompliant Res)|]; reflexivity.
Qed.

Lemma exec_PullXRCorridorEnvelope (T : Transport) (w : World T)
    (this : UCN_XRDataRetriever) (SessionID : string)
    (OutEnvelope : FXRSessionEnvelope) :
  exec T (pullCorridor this SessionID OutEnvelope) w =
  {| value :=
       let '(sent, Res) := answer T w (corridorReq SessionID) Res0 in
       if sent && bCompliant Res
       then {| returned := true; out := SessionEnvelope Res; self := this |}
       else {| returned := false; out := OutEnvelope; self := this |};
     requests := [corridorReq SessionID];
     world := snd (send T (corridorReq SessionID) Res0 w) |}.
Proof.
  unfold PullXRCorridorEnvelope, answer, corridor_request; cbn.
  destruct (send T _ _ w) as [[sent Res] w']; cbn.
  destruct sent; cbn; [destruct (bCompliant Res)|]; reflexivity.
Qed.

(** The value of a call when the transport's answer is known. *)
Lemma PullXRHostSnapshot_value (T : Transport) (w : World T)
    (this : UCN_XRDataRetriever) (HostID : string)
    (OutSnapshot : FXRHostSnapshot)
    (sent : bool) (Res : FCyberNanoXRResponse _ _) :
  answer T w (hostReq HostID) Res0 = (sent, Res) ->
  value (exec T (pullHost this HostID OutSnapshot) w) =
  if sent && bCompliant Res
  then {| returned := true; out := HostSnapshot Res; self := this |}
  else {| returned := false; out := OutSnapshot; self := this |}.
Proof.
  intros Ha. rewrite exec_PullXRHostSnapshot. cbn. now rewrite Ha.
Qed.

Lemma PullXRCorridorEnvelope_value (T : Transport) (w : World T)
    (this : UCN_XRDataRetriever) (SessionID : string)
    (OutEnvelope : FXRSessionEnvelope)
    (sent : bool) (Res : FCyberNanoXRResponse _ _) :
  answer T w (corridorReq SessionID) Res0 = (sent, Res) ->
  value (exec T (pullCorridor this SessionID OutEnvelope) w) =
  if sent && bCompliant Res
  then {| returned := true; out := SessionEnvelope Res; self := this |}
  else {| returned := false; out := OutEnvelope; self := this |}.
Proof.
  intros Ha. rewrite exec_PullXRCorridorEnvelope. cbn. now rewrite Ha.
Qed.

(** A failed exchange has an answer whose first component is [false]. *)
Lemma fails_answer (T : Transport) (w : World T)
    (Req : FCyberNanoXRRequest) :
  fails T w Req Res0 ->
  exists Res, answer T w Req Res0 = (false, Res).
Proof.
  unfold fails. destruct (answer T w Req Res0) as [sent Res]; cbn.
  intros ->. now exists Res.
Qed.

(** The exchanges that fall under each cause. *)
Lemma cause_TransportFailure {P : Type}
    (payload : RetrievalResponse FXRHostSnapshot FXRSessionEnvelope ->
               option P)
    (o : option (RetrievalResponse FXRHostSnapshot FXRSessionEnvelope)) :
  cause_of payload o = Some TransportFailure -> o = None.
Proof.
  destruct o as [r|]; cbn; [|reflexivity].
  destruct (compliant r); cbn; [destruct (payload r)|]; discriminate.
Qed.

Lemma cause_NonCompliant {P : Type}
    (payload : RetrievalResponse FXRHostSnapshot FXRSessionEnvelope ->
               option P)
    (o : option (RetrievalResponse FXRHostSnapshot FXRSessionEnvelope)) :
  cause_of payload o = Some NonCompliant ->
  exists r, o = Some r /\ compliant r = false.
Proof.
  destruct o as [r|]; cbn; [|discriminate].
  destruct (compliant r) eqn:E; cbn.
  - destruct (payload r); discriminate.
  - intros _. exists r. auto.
Qed.

Lemma cause_MalformedResponse {P : Type}
    (payload : RetrievalResponse FXRHostSnapshot FXRSessionEnvelope ->
               option P)
    (o : option (RetrievalResponse FXRHostSnapshot FXRSessionEnvelope)) :
  cause_of payload o = Some MalformedResponse ->
  exists r, o = Some r /\ compliant r = true /\ payload r = None.
Proof.
  destruct o as [r|]; cbn; [|discriminate].
  destruct (compliant r) eqn:E; cbn; [|discriminate].
  destruct (payload r) eqn:N; [discriminate|].
  intros _. exists r. auto.
Qed.

(** *** What reaches the caller *)

(** C1 (as the code has it): a call returns [true] only when the exchange
    succeeded and the response carries [bCompliant]; the out-parameter then
    holds exactly the response field of the requested action
    ([HostSnapshot] for [PullXRHostSnapshot], [SessionEnvelope] for
    [PullXRCorridorEnvelope]), whole, whether or not the transport
    populated that field. *)
Theorem surfaced_payload_is_gated_field (T : Transport) (w : World T)
    (this : UCN_XRDataRetriever) (HostID SessionID : string)
    (OutSnapshot : FXRHostSnapshot) (OutEnvelope : FXRSessionEnvelope) :
  (returned (value (exec T (pullHost this HostID OutSnapshot) w)) = true ->
   exists Res,
     answer T w (hostReq HostID) Res0 = (true, Res) /\
     bCompliant Res = true /\
     out (value (exec T (pullHost this HostID OutSnapshot) w))
       = HostSnapshot Res)
  /\
  (returned (value (exec T (pullCorridor this SessionID OutEnvelope) w))
     = true ->
   exists Res,
     answer T w (corridorReq SessionID) Res0 = (true, Res) /\
     bCompliant Res = true /\
     out (value (exec T (pullCorridor this SessionID OutEnvelope) w))
       = SessionEnvelope Res).
Proof.
  split.
  - destruct (answer T w (hostReq HostID) Res0) as [sent Res] eqn:Ha.
    rewrite (PullXRHostSnapshot_value _ _ _ _ _ _ _ Ha).
    destruct sent, (bCompliant Res) eqn:Hc; cbn; try discriminate.
    intros _. exists Res. auto.
  - destruct (answer T w (corridorReq SessionID) Res0) as [sent Res] eqn:Ha.
    rewrite (PullXRCorridorEnvelope_value _ _ _ _ _ _ _ Ha).
    destruct sent, (bCompliant Res) eqn:Hc; cbn; try discriminate.
    intros _. exists Res. auto.
Qed.

(** C2 (as the code has it): when the exchange succeeds and the response
    is not compliant, the call returns [false] and the out-parameter is as
    at entry, whatever the payload fields of the response hold.  That
    [false] names no cause: it is the very result a failed exchange gives
    from the same entry.  For both methods. *)
Theorem non_compliant_exposes_nothing
    (T T' : Transport) (w : World T) (w' : World T')
    (this : UCN_XRDataRetriever) (HostID SessionID : string)
    (OutSnapshot : FXRHostSnapshot) (OutEnvelope : FXRSessionEnvelope) :
  (forall Res,
     answer T w (hostReq HostID) Res0 = (true, Res) ->
     bCompliant Res = false ->
     value (exec T (pullHost this HostID OutSnapshot) w)
       = {| returned := false; out := OutSnapshot; self := this |} /\
     (fails T' w' (hostReq HostID) Res0 ->
      value (exec T (pullHost this HostID OutSnapshot) w)
        = value (exec T' (pullHost this HostID OutSnapshot) w')))
  /\
  (forall Res,
     answer T w (corridorReq SessionID) Res0 = (true, Res) ->
     bCompliant Res = false ->
     value (exec T (pullCorridor this SessionID OutEnvelope) w)
       = {| returned := false; out := OutEnvelope; self := this |} /\
     (fails T' w' (corridorReq SessionID) Res0 ->
      value (exec T (pullCorridor this SessionID OutEnvelope) w)
        = value (exec T' (pullCorridor this SessionID OutEnvelope) w'))).
Proof.
  split; intros Res Ha Hc.
  - rewrite (PullXRHostSnapshot_value _ _ _ _ _ _ _ Ha), Hc.
    split; [reflexivity|]. intros Hf.
    apply fails_answer in Hf. destruct Hf as [Res' Hf].
    rewrite (PullXRHostSnapshot_value _ _ _ _ _ _ _ Hf). reflexivity.
  - rewrite (PullXRCorridorEnvelope_value _ _ _ _ _ _ _ Ha), Hc.
    split; [reflexivity|]. intros Hf.
    apply fails_answer in Hf. destruct Hf as [Res' Hf].
    rewrite (PullXRCorridorEnvelope_value _ _ _ _ _ _ _ Hf). reflexivity.
Qed.

(** C3: for a non-empty host id, when the transport delivers a compliant
    response whose host snapshot is present, [PullXRHostSnapshot] returns
    [true] and the out-parameter holds exactly that snapshot. *)
Theorem compliant_snapshot_is_returned (T : Transport) (w : World T)
    (this : UCN_XRDataRetriever) (HostID : string)
    (OutSnapshot : FXRHostSnapshot)
    (r : RetrievalResponse FXRHostSnapshot FXRSessionEnvelope)
    (s : FXRHostSnapshot) :
  HostID <> "" ->
  delivers T w (hostReq HostID) Res0 r ->
  compliant r = true ->
  hostSnapshot r = Some s ->
  value (exec T (pullHost this HostID OutSnapshot) w)
    = {| returned := true; out := s; self := this |}.
Proof.
  intros _ Hd Hc Hs.
  rewrite (PullXRHostSnapshot_value _ _ _ _ _ _ _ Hd); cbn.
  rewrite Hc, Hs. reflexivity.
Qed.

(** C4 (as the code has it): an empty identifier is not rejected.  The
    request is sent once, carrying the empty identifier, and the call's
    result is decided by the transport's answer as for any other
    identifier. *)
Theorem empty_identifier_is_forwarded (T : Transport) (w : World T)
    (this : UCN_XRDataRetriever)
    (OutSnapshot : FXRHostSnapshot) (OutEnvelope : FXRSessionEnvelope) :
  (requests (exec T (pullHost this "" OutSnapshot) w) = [hostReq ""] /\
   targetId (hostReq "") = "" /\
   returned (value (exec T (pullHost this "" OutSnapshot) w))
     = fst (answer T w (hostReq "") Res0)
       && bCompliant (snd (answer T w (hostReq "") Res0)))
  /\
  (requests (exec T (pullCorridor this "" OutEnvelope) w)
     = [corridorReq ""] /\
   targetId (corridorReq "") = "" /\
   returned (value (exec T (pullCorridor this "" OutEnvelope) w))
     = fst (answer T w (corridorReq "") Res0)
       && bCompliant (snd (answer T w (corridorReq "") Res0))).
Proof.
  split.
  - rewrite exec_PullXRHostSnapshot; cbn.
    repeat split.
    destruct (answer T w (hostReq "") Res0) as [sent Res]; cbn.
    destruct (sent && bCompliant Res); reflexivity.
  - rewrite exec_PullXRCorridorEnvelope; cbn.
    repeat split.
    destruct (answer T w (corridorReq "") Res0) as [sent Res]; cbn.
    destruct (sent && bCompliant Res); reflexivity.
Qed.

(** C5 (as the code has it): when the transport delivers a compliant
    response whose requested payload is absent, the call returns [true]
    and the out-parameter receives the unpopulated field, that is the
    payload of the default-constructed response; for both methods. *)
Theorem compliant_without_payload_succeeds (T : Transport) (w : World T)
    (this : UCN_XRDataRetriever) (HostID SessionID : string)
    (OutSnapshot : FXRHostSnapshot) (OutEnvelope : FXRSessionEnvelope)
    (r : RetrievalResponse FXRHostSnapshot FXRSessionEnvelope) :
  compliant r = true ->
  (delivers T w (hostReq HostID) Res0 r ->
   hostSnapshot r = None ->
   value (exec T (pullHost this HostID OutSnapshot) w)
     = {| returned := true; out := HostSnapshot Res0; self := this |})
  /\
  (delivers T w (corridorReq SessionID) Res0 r ->
   sessionEnvelope r = None ->
   value (exec T (pullCorridor this SessionID OutEnvelope) w)
     = {| returned := true; out := SessionEnvelope Res0; self := this |}).
Proof.
  intros Hc; split; intros Hd Hn.
  - rewrite (PullXRHostSnapshot_value _ _ _ _ _ _ _ Hd); cbn.
    rewrite Hc, Hn. reflexivity.
  - rewrite (PullXRCorridorEnvelope_value _ _ _ _ _ _ _ Hd); cbn.
    rewrite Hc, Hn. reflexivity.
Qed.

(** C6 (as the code has it): the result tells a compliant answer from
    every other one and nothing more.  A failed exchange and a
    non-compliant response both return [false] with the out-parameter as
    at entry, so the caller observes the same thing; a compliant response
    without the requested payload returns [true] and so differs from
    both.  For both methods. *)
Theorem failure_causes_collapse
    (T1 T2 T3 : Transport) (w1 : World T1) (w2 : World T2) (w3 : World T3)
    (o1 o2 o3 : option (RetrievalResponse FXRHostSnapshot FXRSessionEnvelope))
    (this : UCN_XRDataRetriever) (HostID SessionID : string)
    (OutSnapshot : FXRHostSnapshot) (OutEnvelope : FXRSessionEnvelope) :
  (outcome T1 w1 (hostReq HostID) Res0 o1 ->
   outcome T2 w2 (hostReq HostID) Res0 o2 ->
   outcome T3 w3 (hostReq HostID) Res0 o3 ->
   cause_of hostSnapshot o1 = Some TransportFailure ->
   cause_of hostSnapshot o2 = Some NonCompliant ->
   cause_of hostSnapshot o3 = Some MalformedResponse ->
   observable (value (exec T1 (pullHost this HostID OutSnapshot) w1))
     = (false, OutSnapshot) /\
   observable (value (exec T2 (pullHost this HostID OutSnapshot) w2))
     = (false, OutSnapshot) /\
   returned (value (exec T3 (pullHost this HostID OutSnapshot) w3)) = true)
  /\
  (outcome T1 w1 (corridorReq SessionID) Res0 o1 ->
   outcome T2 w2 (corridorReq SessionID) Res0 o2 ->
   outcome T3 w3 (corridorReq SessionID) Res0 o3 ->
   cause_of sessionEnvelope o1 = Some TransportFailure ->
   cause_of sessionEnvelope o2 = Some NonCompliant ->
   cause_of sessionEnvelope o3 = Some MalformedResponse ->
   observable (value (exec T1 (pullCorridor this SessionID OutEnvelope) w1))
     = (false, OutEnvelope) /\
   observable (value (exec T2 (pullCorridor this SessionID OutEnvelope) w2))
     = (false, OutEnvelope) /\
   returned (value (exec T3 (pullCorridor this SessionID OutEnvelope) w3))
     = true).
Proof.
  split; intros H1 H2 H3 C1 C2 C3;
    apply cause_TransportFailure in C1; subst o1;
    apply cause_NonCompliant in C2; destruct C2 as (r2 & -> & E2);
    apply cause_MalformedResponse in C3; destruct C3 as (r3 & -> & E3 & N3);
    cbn in H1, H2, H3;
    apply fails_answer in H1; destruct H1 as [Res1 H1].
  - rewrite (PullXRHostSnapshot_value _ _ _ _ _ _ _ H1).
    rewrite (PullXRHostSnapshot_value _ _ _ _ _ _ _ H2).
    rewrite (PullXRHostSnapshot_value _ _ _ _ _ _ _ H3).
    cbn. rewrite E2, E3. cbn. auto.
  - rewrite (PullXRCorridorEnvelope_value _ _ _ _ _ _ _ H1).
    rewrite (PullXRCorridorEnvelope_value _ _ _ _ _ _ _ H2).
    rewrite (PullXRCorridorEnvelope_value _ _ _ _ _ _ _ H3).
    cbn. rewrite E2, E3. cbn. auto.
Qed.

(** C7 (as the code has it): each method reads only the payload field of
    its own action.  On a response whose only populated payload is the
    session envelope, [PullXRHostSnapshot] returns [true] exactly when the
    response is compliant and then writes the unpopulated host-snapshot
    field, nothing of the envelope; and the same with the roles of the two
    payloads exchanged for [PullXRCorridorEnvelope]. *)
Theorem pairing_reads_own_field (T : Transport) (w : World T)
    (this : UCN_XRDataRetriever) (HostID SessionID : string)
    (OutSnapshot : FXRHostSnapshot) (OutEnvelope : FXRSessionEnvelope)
    (r : RetrievalResponse FXRHostSnapshot FXRSessionEnvelope) :
  (delivers T w (hostReq HostID) Res0 r ->
   hostSnapshot r = None -> sessionEnvelope r <> None ->
   value (exec T (pullHost this HostID OutSnapshot) w)
     = if compliant r
       then {| returned := true; out := HostSnapshot Res0; self := this |}
       else {| returned := false; out := OutSnapshot; self := this |})
  /\
  (delivers T w (corridorReq SessionID) Res0 r ->
   sessionEnvelope r = None -> hostSnapshot r <> None ->
   value (exec T (pullCorridor this SessionID OutEnvelope) w)
     = if compliant r
       then {| returned := true; out := SessionEnvelope Res0; self := this |}
       else {| returned := false; out := OutEnvelope; self := this |}).
Proof.
  split; intros Hd Hn _.
  - rewrite (PullXRHostSnapshot_value _ _ _ _ _ _ _ Hd); cbn.
    rewrite Hn. reflexivity.
  - rewrite (PullXRCorridorEnvelope_value _ _ _ _ _ _ _ Hd); cbn.
    rewrite Hn. reflexivity.
Qed.

(** *** What reaches the transport *)

(** C8: for a non-empty identifier, a call reaches the transport exactly
    once, whatever the transport answers: the requests of the run are the
    single request built from the identifier, with the action of the
    method and the identifier as its target, and the transport's state
    is the one a single [send] leaves.  For both methods. *)
Theorem single_request_per_call (T : Transport) (w : World T)
    (this : UCN_XRDataRetriever) (HostID SessionID : string)
    (OutSnapshot : FXRHostSnapshot) (OutEnvelope : FXRSessionEnvelope) :
  (HostID <> "" ->
   requests (exec T (pullHost this HostID OutSnapshot) w)
     = [hostReq HostID] /\
   Action (hostReq HostID) = ECyberNanoXRAction.HostSnapshot /\
   HostId (hostReq HostID) = HostID /\
   targetId (hostReq HostID) = HostID /\
   world (exec T (pullHost this HostID OutSnapshot) w)
     = snd (send T (hostReq HostID) Res0 w))
  /\
  (SessionID <> "" ->
   requests (exec T (pullCorridor this SessionID OutEnvelope) w)
     = [corridorReq SessionID] /\
   Action (corridorReq SessionID) = ECyberNanoXRAction.CorridorEnvelope /\
   SessionId (corridorReq SessionID) = SessionID /\
   targetId (corridorReq SessionID) = SessionID /\
   world (exec T (pullCorridor this SessionID OutEnvelope) w)
     = snd (send T (corridorReq SessionID) Res0 w)).
Proof.
  split; intros _.
  - rewrite exec_PullXRHostSnapshot. cbn. auto.
  - rewrite exec_PullXRCorridorEnvelope. cbn. auto.
Qed.

(** *** Frame and determinism *)

(** C9: a call that returns [false] leaves the out-parameter exactly as it
    was at entry; for both methods and every transport. *)
Theorem false_return_leaves_out_parameter (T : Transport) (w : World T)
    (this : UCN_XRDataRetriever) (HostID SessionID : string)
    (OutSnapshot : FXRHostSnapshot) (OutEnvelope : FXRSessionEnvelope) :
  (returned (value (exec T (pullHost this HostID OutSnapshot) w)) = false ->
   out (value (exec T (pullHost this HostID OutSnapshot) w)) = OutSnapshot)
  /\
  (returned (value (exec T (pullCorridor this SessionID OutEnvelope) w))
     = false ->
   out (value (exec T (pullCorridor this SessionID OutEnvelope) w))
     = OutEnvelope).
Proof.
  split.
  - rewrite exec_PullXRHostSnapshot; cbn.
    destruct (answer T w (hostReq HostID) Res0) as [sent Res].
    destruct (sent && bCompliant Res); cbn; [discriminate | reflexivity].
  - rewrite exec_PullXRCorridorEnvelope; cbn.
    destruct (answer T w (corridorReq SessionID) Res0) as [sent Res].
    destruct (sent && bCompliant Res); cbn; [discriminate | reflexivity].
Qed.

(** C10: two calls with the same identifier whose transports give the same
    answer return the same [bool] and, when they return [true], write the
    same payload (with equal out-parameters at entry the out-parameters at
    return are equal in every case), whatever the two component objects
    and the two transport states are; and a call hands the component
    object back as it received it.  For both methods. *)
Theorem calls_are_deterministic
    (T1 T2 : Transport) (w1 : World T1) (w2 : World T2)
    (this1 this2 : UCN_XRDataRetriever) (HostID SessionID : string)
    (OutSnapshot1 OutSnapshot2 : FXRHostSnapshot)
    (OutEnvelope1 OutEnvelope2 : FXRSessionEnvelope) :
  (answer T1 w1 (hostReq HostID) Res0 = answer T2 w2 (hostReq HostID) Res0 ->
   let p1 := value (exec T1 (pullHost this1 HostID OutSnapshot1) w1) in
   let p2 := value (exec T2 (pullHost this2 HostID OutSnapshot2) w2) in
   returned p1 = returned p2 /\
   (returned p1 = true -> out p1 = out p2) /\
   (OutSnapshot1 = OutSnapshot2 -> out p1 = out p2) /\
   self p1 = this1 /\ self p2 = this2)
  /\
  (answer T1 w1 (corridorReq SessionID) Res0
     = answer T2 w2 (corridorReq SessionID) Res0 ->
   let p1 := value (exec T1 (pullCorridor this1 SessionID OutEnvelope1) w1) in
   let p2 := value (exec T2 (pullCorridor this2 SessionID OutEnvelope2) w2) in
   returned p1 = returned p2 /\
   (returned p1 = true -> out p1 = out p2) /\
   (OutEnvelope1 = OutEnvelope2 -> out p1 = out p2) /\
   self p1 = this1 /\ self p2 = this2).
Proof.
  split; intros Ha; cbv zeta.
  - rewrite !exec_PullXRHostSnapshot; cbn. rewrite Ha.
    destruct (answer T2 w2 (hostReq HostID) Res0) as [sent Res].
    destruct (sent && bCompliant Res); cbn;
      repeat split; auto; discriminate.
  - rewrite !exec_PullXRCorridorEnvelope; cbn. rewrite Ha.
    destruct (answer T2 w2 (corridorReq SessionID) Res0) as [sent Res].
    destruct (sent && bCompliant Res); cbn;
      repeat split; auto; discriminate.
Qed.

End Gate.

(** ** Further behaviour of the two methods *)

Section Calls.

Context {FXRHostSnapshot FXRSessionEnvelope UCN_XRDataRetriever : Type}.
Variable DefaultRequest : FCyberNanoXRRequest.
Variable DefaultResponse :
  FCyberNanoXRResponse FXRHostSnapshot FXRSessionEnvelope.

Local Abbreviation Transport :=
  (Transport FXRHostSnapshot FXRSessionEnvelope).
Local Abbreviation Res0 := DefaultResponse.
Local Abbreviation hostReq := (host_request DefaultRequest).
Local Abbreviation corridorReq := (corridor_request DefaultRequest).
Local Abbreviation pullHost :=
  (PullXRHostSnapshot (UCN_XRDataRetriever := UCN_XRDataRetriever)
     DefaultRequest DefaultResponse).
Local Abbreviation pullCorridor :=
  (PullXRCorridorEnvelope (UCN_XRDataRetriever := UCN_XRDataRetriever)
     DefaultRequest DefaultResponse).

(** Running a sequence: the second program starts in the transport state
    the first one left, and the requests of the two follow each other. *)
Lemma exec_bind (T : Transport) {A B : Type}
    (p : Bridge FXRHostSnapshot FXRSessionEnvelope A)
    (k : A -> Bridge FXRHostSnapshot FXRSessionEnvelope B) (w : World T) :
  exec T (bind p k) w =
  {| value := value (exec T (k (value (exec T p w))) (world (exec T p w)));
     requests :=
       requests (exec T p w)
       ++ requests (exec T (k (value (exec T p w))) (world (exec T p w)));
     world := world (exec T (k (value (exec T p w))) (world (exec T p w))) |}.
Proof.
  revert w. induction p as [a | Req Res c IH]; intros w; cbn.
  - destruct (exec T (k a) w); reflexivity.
  - destruct (send T Req Res w) as [[sent Res'] w']; cbn.
    rewrite IH. reflexivity.
Qed.

(** X1: when the transport delivers a compliant response whose session
    envelope is present, [PullXRCorridorEnvelope] returns [true] and the
    out-parameter holds exactly that envelope, for every session id. *)
Theorem compliant_envelope_is_returned (T : Transport) (w : World T)
    (this : UCN_XRDataRetriever) (SessionID : string)
    (OutEnvelope : FXRSessionEnvelope)
    (r : RetrievalResponse FXRHostSnapshot FXRSessionEnvelope)
    (e : FXRSessionEnvelope) :
  delivers T w (corridorReq SessionID) Res0 r ->
  compliant r = true ->
  sessionEnvelope r = Some e ->
  value (exec T (pullCorridor this SessionID OutEnvelope) w)
    = {| returned := true; out := e; self := this |}.
Proof.
  intros Hd Hc He.
  rewrite (PullXRCorridorEnvelope_value _ _ _ _ _ _ _ _ _ Hd); cbn.
  rewrite Hc, He. reflexivity.
Qed.

(** X2: when [SendXRRequest] returns [false] the response object is not
    looked at: the call returns [false] and the out-parameter is as at
    entry, even if the bridge left the response flagged compliant with
    payloads in it.  For both methods. *)
Theorem failed_exchange_ignores_response (T : Transport) (w : World T)
    (this : UCN_XRDataRetriever) (HostID SessionID : string)
    (OutSnapshot : FXRHostSnapshot) (OutEnvelope : FXRSessionEnvelope) :
  (forall Res,
     answer T w (hostReq HostID) Res0 = (false, Res) ->
     value (exec T (pullHost this HostID OutSnapshot) w)
       = {| returned := false; out := OutSnapshot; self := this |})
  /\
  (forall Res,
     answer T w (corridorReq SessionID) Res0 = (false, Res) ->
     value (exec T (pullCorridor this SessionID OutEnvelope) w)
       = {| returned := false; out := OutEnvelope; self := this |}).
Proof.
  split; intros Res Ha.
  - rewrite (PullXRHostSnapshot_value _ _ _ _ _ _ _ _ _ Ha). reflexivity.
  - rewrite (PullXRCorridorEnvelope_value _ _ _ _ _ _ _ _ _ Ha).
    reflexivity.
Qed.

(** X3: the payload of the other action does not interfere.  Two answers
    that agree on the bridge's boolean, on [bCompliant] and on
    [HostSnapshot] give [PullXRHostSnapshot] the same result, whatever
    their [SessionEnvelope] fields hold; and the same for
    [PullXRCorridorEnvelope] with the two payload fields exchanged. *)
Theorem other_payload_does_not_interfere
    (T1 T2 : Transport) (w1 : World T1) (w2 : World T2)
    (this : UCN_XRDataRetriever) (HostID SessionID : string)
    (OutSnapshot : FXRHostSnapshot) (OutEnvelope : FXRSessionEnvelope)
    (sent : bool)
    (Res1 Res2 : FCyberNanoXRResponse FXRHostSnapshot FXRSessionEnvelope) :
  bCompliant Res1 = bCompliant Res2 ->
  (answer T1 w1 (hostReq HostID) Res0 = (sent, Res1) ->
   answer T2 w2 (hostReq HostID) Res0 = (sent, Res2) ->
   HostSnapshot Res1 = HostSnapshot Res2 ->
   value (exec T1 (pullHost this HostID OutSnapshot) w1)
     = value (exec T2 (pullHost this HostID OutSnapshot) w2))
  /\
  (answer T1 w1 (corridorReq SessionID) Res0 = (sent, Res1) ->
   answer T2 w2 (corridorReq SessionID) Res0 = (sent, Res2) ->
   SessionEnvelope Res1 = SessionEnvelope Res2 ->
   value (exec T1 (pullCorridor this SessionID OutEnvelope) w1)
     = value (exec T2 (pullCorridor this SessionID OutEnvelope) w2)).
Proof.
  intros Hc; split; intros H1 H2 Hp.
  - rewrite (PullXRHostSnapshot_value _ _ _ _ _ _ _ _ _ H1).
    rewrite (PullXRHostSnapshot_value _ _ _ _ _ _ _ _ _ H2).
    rewrite Hc, Hp. reflexivity.
  - rewrite (PullXRCorridorEnvelope_value _ _ _ _ _ _ _ _ _ H1).
    rewrite (PullXRCorridorEnvelope_value _ _ _ _ _ _ _ _ _ H2).
    rewrite Hc, Hp. reflexivity.
Qed.

(** X4: the requests tell the calls apart.  Calls of one method with
    different identifiers send different requests, and a call of
    [PullXRHostSnapshot] never sends what a call of
    [PullXRCorridorEnvelope] sends, even with the same identifier string;
    whatever the transports, component objects and out-parameters are. *)
Theorem requests_identify_the_call
    (T1 T2 : Transport) (w1 : World T1) (w2 : World T2)
    (this1 this2 : UCN_XRDataRetriever) (Id1 Id2 : string)
    (OutSnapshot1 OutSnapshot2 : FXRHostSnapshot)
    (OutEnvelope1 OutEnvelope2 : FXRSessionEnvelope) :
  (Id1 <> Id2 ->
   requests (exec T1 (pullHost this1 Id1 OutSnapshot1) w1)
     <> requests (exec T2 (pullHost this2 Id2 OutSnapshot2) w2))
  /\
  (Id1 <> Id2 ->
   requests (exec T1 (pullCorridor this1 Id1 OutEnvelope1) w1)
     <> requests (exec T2 (pullCorridor this2 Id2 OutEnvelope2) w2))
  /\
  requests (exec T1 (pullHost this1 Id1 OutSnapshot1) w1)
    <> requests (exec T2 (pullCorridor this2 Id2 OutEnvelope2) w2).
Proof.
  rewrite !exec_PullXRHostSnapshot, !exec_PullXRCorridorEnvelope; cbn.
  unfold host_request, corridor_request, set_HostId, set_SessionId,
    set_Action; cbn.
  repeat split.
  - intros Hne Heq. apply Hne. now injection Heq.
  - intros Hne Heq. apply Hne. now injection Heq.
  - intros Heq. discriminate Heq.
Qed.

(** X5: each method assigns only the identifier field of its own action.
    The request of [PullXRHostSnapshot] carries the [SessionId] of the
    default-constructed request, and the request of
    [PullXRCorridorEnvelope] carries its [HostId], whatever identifier
    the call was given. *)
Theorem other_identifier_is_left_default (T : Transport) (w : World T)
    (this : UCN_XRDataRetriever) (HostID SessionID : string)
    (OutSnapshot : FXRHostSnapshot) (OutEnvelope : FXRSessionEnvelope) :
  map SessionId (requests (exec T (pullHost this HostID OutSnapshot) w))
    = [SessionId DefaultRequest]
  /\
  map HostId (requests (exec T (pullCorridor this SessionID OutEnvelope) w))
    = [HostId DefaultRequest].
Proof.
  rewrite exec_PullXRHostSnapshot, exec_PullXRCorridorEnvelope.
  split; reflexivity.
Qed.

(** X6: nothing is cached between calls.  Two successive calls of one
    method reach the transport twice, in order, also when the identifier
    is the same; the transport ends in the state two sends leave, and the
    second call's [bool] is decided by the transport's second answer
    alone. *)
Theorem successive_calls_are_not_cached (T : Transport) (w : World T)
    (this : UCN_XRDataRetriever) (Id1 Id2 : string)
    (OutSnapshot : FXRHostSnapshot) (OutEnvelope : FXRSessionEnvelope) :
  (let twice :=
     bind (pullHost this Id1 OutSnapshot)
          (fun p => pullHost (self p) Id2 (out p)) in
   let w' := snd (send T (hostReq Id1) Res0 w) in
   requests (exec T twice w) = [hostReq Id1; hostReq Id2] /\
   world (exec T twice w) = snd (send T (hostReq Id2) Res0 w') /\
   returned (value (exec T twice w))
     = fst (answer T w' (hostReq Id2) Res0)
       && bCompliant (snd (answer T w' (hostReq Id2) Res0)))
  /\
  (let twice :=
     bind (pullCorridor this Id1 OutEnvelope)
          (fun p => pullCorridor (self p) Id2 (out p)) in
   let w' := snd (send T (corridorReq Id1) Res0 w) in
   requests (exec T twice w) = [corridorReq Id1; corridorReq Id2] /\
   world (exec T twice w) = snd (send T (corridorReq Id2) Res0 w') /\
   returned (value (exec T twice w))
     = fst (answer T w' (corridorReq Id2) Res0)
       && bCompliant (snd (answer T w' (corridorReq Id2) Res0))).
Proof.
  split; cbv zeta; rewrite exec_bind.
  - rewrite !exec_PullXRHostSnapshot; cbn. repeat split.
    destruct (answer T _ (hostReq Id2) Res0) as [sent Res]; cbn.
    destruct (sent && bCompliant Res); reflexivity.
  - rewrite !exec_PullXRCorridorEnvelope; cbn. repeat split.
    destruct (answer T _ (corridorReq Id2) Res0) as [sent Res]; cbn.
    destruct (sent && bCompliant Res); reflexivity.
Qed.

(** X7: a [false] return does not clear the out-parameter.  When a call
    that returned [true] is followed by a call on the same variable that
    fails or is answered non-compliant, the second call returns [false]
    and the variable still holds the payload of the first call.  For both
    methods. *)
Theorem false_return_keeps_earlier_payload (T : Transport) (w : World T)
    (this : UCN_XRDataRetriever) (Id1 Id2 : string)
    (OutSnapshot : FXRHostSnapshot) (OutEnvelope : FXRSessionEnvelope)
    (Res1 : FCyberNanoXRResponse FXRHostSnapshot FXRSessionEnvelope) :
  bCompliant Res1 = true ->
  (let w' := snd (send T (hostReq Id1) Res0 w) in
   answer T w (hostReq Id1) Res0 = (true, Res1) ->
   fst (answer T w' (hostReq Id2) Res0)
     && bCompliant (snd (answer T w' (hostReq Id2) Res0)) = false ->
   value (exec T (bind (pullHost this Id1 OutSnapshot)
                       (fun p => pullHost (self p) Id2 (out p))) w)
     = {| returned := false; out := HostSnapshot Res1; self := this |})
  /\
  (let w' := snd (send T (corridorReq Id1) Res0 w) in
   answer T w (corridorReq Id1) Res0 = (true, Res1) ->
   fst (answer T w' (corridorReq Id2) Res0)
     && bCompliant (snd (answer T w' (corridorReq Id2) Res0)) = false ->
   value (exec T (bind (pullCorridor this Id1 OutEnvelope)
                       (fun p => pullCorridor (self p) Id2 (out p))) w)
     = {| returned := false; out := SessionEnvelope Res1; self := this |}).
Proof.
  intros Hc; split; cbv zeta; intros H1 H2; rewrite exec_bind.
  - rewrite !exec_PullXRHostSnapshot; cbn.
    rewrite H1, Hc; cbn.
    destruct (answer T _ (hostReq Id2) Res0) as [sent Res]; cbn in *.
    rewrite H2. reflexivity.
  - rewrite !exec_PullXRCorridorEnvelope; cbn.
    rewrite H1, Hc; cbn.
    destruct (answer T _ (corridorReq Id2) Res0) as [sent Res]; cbn in *.
    rewrite H2. reflexivity.
Qed.

(** X8: a [false] return leaves nothing behind on the caller's side.  A
    call made after a call that returned [false], on the same component
    and the same variable, yields what it would yield as a first call in
    the transport state the failed call left.  For both methods. *)
Theorem retry_after_false_is_a_fresh_call (T : Transport) (w : World T)
    (this : UCN_XRDataRetriever) (Id1 Id2 : string)
    (OutSnapshot : FXRHostSnapshot) (OutEnvelope : FXRSessionEnvelope) :
  (returned (value (exec T (pullHost this Id1 OutSnapshot) w)) = false ->
   value (exec T (bind (pullHost this Id1 OutSnapshot)
                       (fun p => pullHost (self p) Id2 (out p))) w)
     = value (exec T (pullHost this Id2 OutSnapshot)
                (world (exec T (pullHost this Id1 OutSnapshot) w))))
  /\
  (returned (value (exec T (pullCorridor this Id1 OutEnvelope) w)) = false ->
   value (exec T (bind (pullCorridor this Id1 OutEnvelope)
                       (fun p => pullCorridor (self p) Id2 (out p))) w)
     = value (exec T (pullCorridor this Id2 OutEnvelope)
                (world (exec T (pullCorridor this Id1 OutEnvelope) w)))).
Proof.
  split; rewrite exec_bind.
  - rewrite !exec_PullXRHostSnapshot; cbn.
    destruct (answer T w (hostReq Id1) Res0) as [sent Res].
    destruct (sent && bCompliant Res); cbn; [discriminate | reflexivity].
  - rewrite !exec_PullXRCorridorEnvelope; cbn.
    destruct (answer T w (corridorReq Id1) Res0) as [sent Res].
    destruct (sent && bCompliant Res); cbn; [discriminate | reflexivity].
Qed.

End Calls.

(** ** The gate on explicit inputs *)

Import Bench.

(** C1, as stated, fails: a compliant response that carries no payload is
    surfaced.  Both calls return [true], and the out-parameters (7 and
    "old" at entry) are overwritten with the unpopulated fields. *)
Lemma unpopulated_payload_is_surfaced :
  delivers (scripted (Some compliant_empty)) 0
    (host_request Req0 "host-42") Res0 compliant_empty /\
  compliant compliant_empty = true /\
  hostSnapshot compliant_empty = None /\
  sessionEnvelope compliant_empty = None /\
  observable (value (exec (scripted (Some compliant_empty))
                       (pullHost 3 "host-42" 7) 0)) = (true, 0) /\
  observable (value (exec (scripted (Some compliant_empty))
                       (pullCorridor 3 "sess-7" "old") 0)) = (true, "") /\
  ~ (returned (value (exec (scripted (Some compliant_empty))
                        (pullHost 3 "host-42" 7) 0)) = true ->
     compliant compliant_empty = true /\
     hostSnapshot compliant_empty <> None).
Proof.
  repeat split. intros H. destruct (H eq_refl) as [_ Hp]. now apply Hp.
Qed.

(** Both calls against the service that answers each action with its own
    payload. *)
Lemma surfaced_payload_is_gated_field_witness :
  (returned (value (exec service (pullHost 3 "host-42" 7) 0)) = true /\
   exists Res,
     answer service 0 (host_request Req0 "host-42") Res0 = (true, Res) /\
     bCompliant Res = true /\
     out (value (exec service (pullHost 3 "host-42" 7) 0))
       = HostSnapshot Res)
  /\
  (returned (value (exec service (pullCorridor 3 "sess-7" "old") 0)) = true /\
   exists Res,
     answer service 0 (corridor_request Req0 "sess-7") Res0 = (true, Res) /\
     bCompliant Res = true /\
     out (value (exec service (pullCorridor 3 "sess-7" "old") 0))
       = SessionEnvelope Res).
Proof.
  destruct (surfaced_payload_is_gated_field Req0 Res0 service 0 3
              "host-42" "sess-7" 7 "old") as [Hh Hc].
  split; (split; [reflexivity|]).
  - apply Hh. reflexivity.
  - apply Hc. reflexivity.
Defined.

(** C2, as stated, fails: the call does not fail with a cause of its own.
    A non-compliant answer and a failed exchange are two causes, the
    caller receives the same result for both, and so no reading of the
    result names [NonCompliant] for the one and [TransportFailure] for
    the other. *)
Lemma non_compliant_result_names_no_cause :
  delivers (scripted (Some non_compliant_loaded)) 0
    (host_request Req0 "host-42") Res0 non_compliant_loaded /\
  fails (scripted failed_exchange) 0 (host_request Req0 "host-42") Res0 /\
  cause_of hostSnapshot (Some non_compliant_loaded) = Some NonCompliant /\
  cause_of hostSnapshot failed_exchange = Some TransportFailure /\
  value (exec (scripted (Some non_compliant_loaded))
           (pullHost 3 "host-42" 7) 0)
    = value (exec (scripted failed_exchange) (pullHost 3 "host-42" 7) 0) /\
  value (exec (scripted (Some non_compliant_loaded))
           (pullCorridor 3 "sess-7" "old") 0)
    = value (exec (scripted failed_exchange)
               (pullCorridor 3 "sess-7" "old") 0) /\
  ~ (exists read : Pulled Component Snapshot -> Cause,
       read (value (exec (scripted (Some non_compliant_loaded))
                      (pullHost 3 "host-42" 7) 0)) = NonCompliant /\
       read (value (exec (scripted failed_exchange)
                      (pullHost 3 "host-42" 7) 0)) = TransportFailure) /\
  ~ (exists read : Pulled Component Envelope -> Cause,
       read (value (exec (scripted (Some non_compliant_loaded))
                      (pullCorridor 3 "sess-7" "old") 0)) = NonCompliant /\
       read (value (exec (scripted failed_exchange)
                      (pullCorridor 3 "sess-7" "old") 0))
         = TransportFailure).
Proof.
  do 6 (split; [reflexivity|]).
  split; intros (read & Hn & Hf); cbn in Hn, Hf;
    rewrite Hn in Hf; discriminate Hf.
Qed.

(** A non-compliant response whose payload fields are both loaded, beside
    a failed exchange. *)
Lemma non_compliant_exposes_nothing_witness :
  (answer (scripted (Some non_compliant_loaded)) 0
     (host_request Req0 "host-42") Res0
     = (true, store non_compliant_loaded Res0) /\
   bCompliant (store non_compliant_loaded Res0) = false /\
   HostSnapshot (store non_compliant_loaded Res0) = 999 /\
   fails (scripted failed_exchange) 5 (host_request Req0 "host-42") Res0 /\
   value (exec (scripted (Some non_compliant_loaded))
            (pullHost 3 "host-42" 7) 0)
     = {| returned := false; out := 7; self := 3 |} /\
   value (exec (scripted (Some non_compliant_loaded))
            (pullHost 3 "host-42" 7) 0)
     = value (exec (scripted failed_exchange) (pullHost 3 "host-42" 7) 5))
  /\
  (answer (scripted (Some non_compliant_loaded)) 0
     (corridor_request Req0 "sess-7") Res0
     = (true, store non_compliant_loaded Res0) /\
   bCompliant (store non_compliant_loaded Res0) = false /\
   SessionEnvelope (store non_compliant_loaded Res0) = "unsafe" /\
   fails (scripted failed_exchange) 5
     (corridor_request Req0 "sess-7") Res0 /\
   value (exec (scripted (Some non_compliant_loaded))
            (pullCorridor 3 "sess-7" "old") 0)
     = {| returned := false; out := "old"; self := 3 |} /\
   value (exec (scripted (Some non_compliant_loaded))
            (pullCorridor 3 "sess-7" "old") 0)
     = value (exec (scripted failed_exchange)
                (pullCorridor 3 "sess-7" "old") 5)).
Proof.
  destruct (non_compliant_exposes_nothing Req0 Res0
              (scripted (Some non_compliant_loaded))
              (scripted failed_exchange) 0 5 3
              "host-42" "sess-7" 7 "old") as [Hh Hc].
  split; (do 4 (split; [reflexivity|])).
  - destruct (Hh (store non_compliant_loaded Res0) eq_refl eq_refl)
      as [Hv Hs].
    split; [exact Hv | apply Hs; reflexivity].
  - destruct (Hc (store non_compliant_loaded Res0) eq_refl eq_refl)
      as [Hv Hs].
    split; [exact Hv | apply Hs; reflexivity].
Defined.

(** The scenario of the spec: host "host-42", a compliant response with a
    snapshot of 21.5 degrees. *)
Lemma compliant_snapshot_is_returned_witness :
  "host-42" <> "" /\
  delivers service 0 (host_request Req0 "host-42") Res0 compliant_snapshot /\
  value (exec service (pullHost 3 "host-42" 7) 0)
    = {| returned := true; out := 215; self := 3 |}.
Proof.
  split; [discriminate|]. split; [reflexivity|].
  apply (compliant_snapshot_is_returned Req0 Res0 service 0 3 "host-42" 7
           compliant_snapshot 215);
    [discriminate | reflexivity | reflexivity | reflexivity].
Defined.

(** C4, as stated, fails: with an empty identifier the request still
    reaches the transport (one request in the run, one call counted by the
    transport) and the call returns [true] with the delivered payload. *)
Lemma empty_identifier_reaches_transport :
  (value (exec service (pullHost 3 "" 7) 0)
     = {| returned := true; out := 215; self := 3 |} /\
   requests (exec service (pullHost 3 "" 7) 0)
     = [ {| Action := ECyberNanoXRAction.HostSnapshot;
            HostId := "";
            SessionId := "" |} ] /\
   world (exec service (pullHost 3 "" 7) 0) = 1)
  /\
  (value (exec service (pullCorridor 3 "" "old") 0)
     = {| returned := true; out := "corridor-A"; self := 3 |} /\
   requests (exec service (pullCorridor 3 "" "old") 0)
     = [ {| Action := ECyberNanoXRAction.CorridorEnvelope;
            HostId := "";
            SessionId := "" |} ] /\
   world (exec service (pullCorridor 3 "" "old") 0) = 1)
  /\
  ~ (returned (value (exec service (pullHost 3 "" 7) 0)) = false /\
     requests (exec service (pullHost 3 "" 7) 0) = []).
Proof. repeat split. intros [H _]. discriminate H. Qed.

(** C5, as stated, fails: on a compliant response without payload neither
    call fails; each returns [true] and overwrites the out-parameter. *)
Lemma absent_payload_returns_true :
  delivers (scripted (Some compliant_empty)) 0
    (host_request Req0 "host-42") Res0 compliant_empty /\
  delivers (scripted (Some compliant_empty)) 0
    (corridor_request Req0 "sess-7") Res0 compliant_empty /\
  cause_of hostSnapshot (Some compliant_empty) = Some MalformedResponse /\
  cause_of sessionEnvelope (Some compliant_empty) = Some MalformedResponse /\
  value (exec (scripted (Some compliant_empty)) (pullHost 3 "host-42" 7) 0)
    = {| returned := true; out := 0; self := 3 |} /\
  value (exec (scripted (Some compliant_empty))
           (pullCorridor 3 "sess-7" "old") 0)
    = {| returned := true; out := ""; self := 3 |} /\
  returned (value (exec (scripted (Some compliant_empty))
                     (pullHost 3 "host-42" 7) 0)) <> false /\
  returned (value (exec (scripted (Some compliant_empty))
                     (pullCorridor 3 "sess-7" "old") 0)) <> false.
Proof. repeat split; discriminate. Qed.

(** A compliant response that carries neither payload. *)
Lemma compliant_without_payload_succeeds_witness :
  compliant compliant_empty = true /\
  (delivers (scripted (Some compliant_empty)) 0
     (host_request Req0 "host-42") Res0 compliant_empty /\
   hostSnapshot compliant_empty = None /\
   value (exec (scripted (Some compliant_empty)) (pullHost 3 "host-42" 7) 0)
     = {| returned := true; out := HostSnapshot Res0; self := 3 |})
  /\
  (delivers (scripted (Some compliant_empty)) 0
     (corridor_request Req0 "sess-7") Res0 compliant_empty /\
   sessionEnvelope compliant_empty = None /\
   value (exec (scripted (Some compliant_empty))
            (pullCorridor 3 "sess-7" "old") 0)
     = {| returned := true; out := SessionEnvelope Res0; self := 3 |}).
Proof.
  destruct (compliant_without_payload_succeeds Req0 Res0
              (scripted (Some compliant_empty)) 0 3 "host-42" "sess-7"
              7 "old" compliant_empty eq_refl) as [Hh Hc].
  split; [reflexivity|].
  split; (split; [reflexivity|]); (split; [reflexivity|]).
  - apply Hh; reflexivity.
  - apply Hc; reflexivity.
Defined.

(** C6, as stated, fails: a failed exchange and a non-compliant response
    are two distinct failure causes, and the caller observes the same
    result for both. *)
Lemma failure_and_non_compliance_look_alike :
  fails (scripted failed_exchange) 0 (host_request Req0 "host-42") Res0 /\
  delivers (scripted (Some non_compliant)) 0
    (host_request Req0 "host-42") Res0 non_compliant /\
  cause_of hostSnapshot failed_exchange = Some TransportFailure /\
  cause_of hostSnapshot (Some non_compliant) = Some NonCompliant /\
  TransportFailure <> NonCompliant /\
  observable (value (exec (scripted failed_exchange)
                       (pullHost 3 "host-42" 7) 0))
    = observable (value (exec (scripted (Some non_compliant))
                           (pullHost 3 "host-42" 7) 0)) /\
  observable (value (exec (scripted failed_exchange)
                       (pullCorridor 3 "sess-7" "old") 0))
    = observable (value (exec (scripted (Some non_compliant))
                           (pullCorridor 3 "sess-7" "old") 0)) /\
  ~ (observable (value (exec (scripted failed_exchange)
                          (pullHost 3 "host-42" 7) 0))
     <> observable (value (exec (scripted (Some non_compliant))
                              (pullHost 3 "host-42" 7) 0))).
Proof.
  repeat split; [discriminate|]. intros H. now apply H.
Qed.

(** One transport per cause, the same call against each. *)
Lemma failure_causes_collapse_witness :
  (cause_of hostSnapshot failed_exchange = Some TransportFailure /\
   cause_of hostSnapshot (Some non_compliant) = Some NonCompliant /\
   cause_of hostSnapshot (Some compliant_empty) = Some MalformedResponse /\
   observable (value (exec (scripted failed_exchange)
                       (pullHost 3 "host-42" 7) 0))
     = (false, 7) /\
   observable (value (exec (scripted (Some non_compliant))
                        (pullHost 3 "host-42" 7) 0))
     = (false, 7) /\
   returned (value (exec (scripted (Some compliant_empty))
                      (pullHost 3 "host-42" 7) 0)) = true)
  /\
  (cause_of sessionEnvelope failed_exchange = Some TransportFailure /\
   cause_of sessionEnvelope (Some non_compliant) = Some NonCompliant /\
   cause_of sessionEnvelope (Some compliant_empty)
     = Some MalformedResponse /\
   observable (value (exec (scripted failed_exchange)
                       (pullCorridor 3 "sess-7" "old") 0))
     = (false, "old") /\
   observable (value (exec (scripted (Some non_compliant))
                        (pullCorridor 3 "sess-7" "old") 0))
     = (false, "old") /\
   returned (value (exec (scripted (Some compliant_empty))
                      (pullCorridor 3 "sess-7" "old") 0)) = true).
Proof.
  destruct (failure_causes_collapse Req0 Res0
              (scripted failed_exchange) (scripted (Some non_compliant))
              (scripted (Some compliant_empty)) 0 0 0
              failed_exchange (Some non_compliant) (Some compliant_empty)
              3 "host-42" "sess-7" 7 "old") as [Hh Hc].
  split; (do 3 (split; [reflexivity|])).
  - apply Hh; reflexivity.
  - apply Hc; reflexivity.
Defined.

(** C7, as stated, fails: a compliant response built for the other action
    makes each call return [true], and the out-parameter is overwritten
    with the unpopulated field of the call's own action. *)
Lemma crossed_response_satisfies_request :
  (hostSnapshot compliant_envelope = None /\
   sessionEnvelope compliant_envelope = Some "corridor-A" /\
   value (exec (scripted (Some compliant_envelope))
            (pullHost 3 "host-42" 7) 0)
     = {| returned := true; out := 0; self := 3 |})
  /\
  (sessionEnvelope compliant_snapshot = None /\
   hostSnapshot compliant_snapshot = Some 215 /\
   value (exec (scripted (Some compliant_snapshot))
            (pullCorridor 3 "sess-7" "old") 0)
     = {| returned := true; out := ""; self := 3 |}).
Proof. repeat split. Qed.

(** Each call against a compliant response built for the other action. *)
Lemma pairing_reads_own_field_witness :
  (delivers (scripted (Some compliant_envelope)) 0
     (host_request Req0 "host-42") Res0 compliant_envelope /\
   hostSnapshot compliant_envelope = None /\
   sessionEnvelope compliant_envelope <> None /\
   value (exec (scripted (Some compliant_envelope))
            (pullHost 3 "host-42" 7) 0)
     = {| returned := true; out := HostSnapshot Res0; self := 3 |})
  /\
  (delivers (scripted (Some compliant_snapshot)) 0
     (corridor_request Req0 "sess-7") Res0 compliant_snapshot /\
   sessionEnvelope compliant_snapshot = None /\
   hostSnapshot compliant_snapshot <> None /\
   value (exec (scripted (Some compliant_snapshot))
            (pullCorridor 3 "sess-7" "old") 0)
     = {| returned := true; out := SessionEnvelope Res0; self := 3 |}).
Proof.
  split; (split; [reflexivity|]); (split; [reflexivity|]);
    (split; [discriminate|]).
  - apply (proj1 (pairing_reads_own_field Req0 Res0
                    (scripted (Some compliant_envelope)) 0 3
                    "host-42" "sess-7" 7 "old" compliant_envelope));
      [reflexivity | reflexivity | discriminate].
  - apply (proj2 (pairing_reads_own_field Req0 Res0
                    (scripted (Some compliant_snapshot)) 0 3
                    "host-42" "sess-7" 7 "old" compliant_snapshot));
      [reflexivity | reflexivity | discriminate].
Defined.

(** Both calls against the service; it counts one call each. *)
Lemma single_request_per_call_witness :
  ("host-42" <> "" /\
   requests (exec service (pullHost 3 "host-42" 7) 0)
     = [host_request Req0 "host-42"] /\
   Action (host_request Req0 "host-42") = ECyberNanoXRAction.HostSnapshot /\
   HostId (host_request Req0 "host-42") = "host-42" /\
   targetId (host_request Req0 "host-42") = "host-42" /\
   world (exec service (pullHost 3 "host-42" 7) 0)
     = snd (send service (host_request Req0 "host-42") Res0 0))
  /\
  ("sess-7" <> "" /\
   requests (exec service (pullCorridor 3 "sess-7" "old") 0)
     = [corridor_request Req0 "sess-7"] /\
   Action (corridor_request Req0 "sess-7")
     = ECyberNanoXRAction.CorridorEnvelope /\
   SessionId (corridor_request Req0 "sess-7") = "sess-7" /\
   targetId (corridor_request Req0 "sess-7") = "sess-7" /\
   world (exec service (pullCorridor 3 "sess-7" "old") 0)
     = snd (send service (corridor_request Req0 "sess-7") Res0 0)).
Proof.
  destruct (single_request_per_call Req0 Res0 service 0 3
              "host-42" "sess-7" 7 "old") as [Hh Hc].
  split; (split; [discriminate|]).
  - apply Hh; discriminate.
  - apply Hc; discriminate.
Defined.

(** Both calls against a transport whose exchange fails. *)
Lemma false_return_leaves_out_parameter_witness :
  (returned (value (exec (scripted failed_exchange)
                       (pullHost 3 "host-42" 7) 0))
     = false /\
   out (value (exec (scripted failed_exchange)
                       (pullHost 3 "host-42" 7) 0)) = 7)
  /\
  (returned (value (exec (scripted failed_exchange)
                       (pullCorridor 3 "sess-7" "old") 0))
     = false /\
   out (value (exec (scripted failed_exchange)
                       (pullCorridor 3 "sess-7" "old") 0))
     = "old").
Proof.
  destruct (false_return_leaves_out_parameter Req0 Res0
              (scripted failed_exchange) 0 3
              "host-42" "sess-7" 7 "old") as [Hh Hc].
  split; (split; [reflexivity|]).
  - apply Hh; reflexivity.
  - apply Hc; reflexivity.
Defined.

(** Two component objects, two transport states, two out-parameters. *)
Lemma calls_are_deterministic_witness :
  (answer service 0 (host_request Req0 "host-42") Res0
     = answer service 5 (host_request Req0 "host-42") Res0 /\
   returned (value (exec service (pullHost 1 "host-42" 7) 0))
     = returned (value (exec service (pullHost 2 "host-42" 9) 5)) /\
   out (value (exec service (pullHost 1 "host-42" 7) 0))
     = out (value (exec service (pullHost 2 "host-42" 9) 5)))
  /\
  (answer service 0 (corridor_request Req0 "sess-7") Res0
     = answer service 5 (corridor_request Req0 "sess-7") Res0 /\
   returned (value (exec service (pullCorridor 1 "sess-7" "old") 0))
     = returned (value (exec service (pullCorridor 2 "sess-7" "older") 5)) /\
   out (value (exec service (pullCorridor 1 "sess-7" "old") 0))
     = out (value (exec service (pullCorridor 2 "sess-7" "older") 5))).
Proof.
  destruct (calls_are_deterministic Req0 Res0 service service 0 5 1 2
              "host-42" "sess-7" 7 9 "old" "older") as [Hh Hc].
  split; (split; [reflexivity|]).
  - destruct (Hh eq_refl) as (Hr & Ho & _). split; [exact Hr|].
    apply Ho. reflexivity.
  - destruct (Hc eq_refl) as (Hr & Ho & _). split; [exact Hr|].
    apply Ho. reflexivity.
Defined.

(** ** Further behaviour on explicit inputs *)

(** The corridor call against the service. *)
Lemma compliant_envelope_is_returned_witness :
  delivers service 0 (corridor_request Req0 "sess-7") Res0
    compliant_envelope /\
  value (exec service (pullCorridor 3 "sess-7" "old") 0)
    = {| returned := true; out := "corridor-A"; self := 3 |}.
Proof.
  split; [reflexivity|].
  apply (compliant_envelope_is_returned Req0 Res0 service 0 3 "sess-7" "old"
           compliant_envelope "corridor-A"); reflexivity.
Defined.

(** A bridge that fails after filling the response with a compliant flag
    and both payloads. *)
Lemma failed_exchange_ignores_response_witness :
  (fst (answer failing_loaded 0 (host_request Req0 "host-42") Res0) = false /\
   bCompliant (snd (answer failing_loaded 0
                      (host_request Req0 "host-42") Res0)) = true /\
   HostSnapshot (snd (answer failing_loaded 0
                        (host_request Req0 "host-42") Res0)) = 999 /\
   value (exec failing_loaded (pullHost 3 "host-42" 7) 0)
     = {| returned := false; out := 7; self := 3 |})
  /\
  (fst (answer failing_loaded 0 (corridor_request Req0 "sess-7") Res0)
     = false /\
   SessionEnvelope (snd (answer failing_loaded 0
                           (corridor_request Req0 "sess-7") Res0))
     = "unsafe" /\
   value (exec failing_loaded (pullCorridor 3 "sess-7" "old") 0)
     = {| returned := false; out := "old"; self := 3 |}).
Proof.
  destruct (failed_exchange_ignores_response Req0 Res0 failing_loaded 0 3
              "host-42" "sess-7" 7 "old") as [Hh Hc].
  split.
  - do 3 (split; [reflexivity|]). eapply Hh. reflexivity.
  - do 2 (split; [reflexivity|]). eapply Hc. reflexivity.
Defined.

(** Responses that differ only in the payload of the other action. *)
Lemma other_payload_does_not_interfere_witness :
  (SessionEnvelope (store compliant_snapshot Res0)
     <> SessionEnvelope (store compliant_both Res0) /\
   value (exec (scripted (Some compliant_snapshot))
            (pullHost 3 "host-42" 7) 0)
     = value (exec (scripted (Some compliant_both))
                (pullHost 3 "host-42" 7) 5))
  /\
  (HostSnapshot (store compliant_envelope Res0)
     <> HostSnapshot (store compliant_both Res0) /\
   value (exec (scripted (Some compliant_envelope))
            (pullCorridor 3 "sess-7" "old") 0)
     = value (exec (scripted (Some compliant_both))
                (pullCorridor 3 "sess-7" "old") 5)).
Proof.
  split; (split; [discriminate|]).
  - apply (proj1 (other_payload_does_not_interfere Req0 Res0
                    (scripted (Some compliant_snapshot))
                    (scripted (Some compliant_both)) 0 5 3
                    "host-42" "sess-7" 7 "old" true
                    (store compliant_snapshot Res0)
                    (store compliant_both Res0) eq_refl));
      reflexivity.
  - apply (proj2 (other_payload_does_not_interfere Req0 Res0
                    (scripted (Some compliant_envelope))
                    (scripted (Some compliant_both)) 0 5 3
                    "host-42" "sess-7" 7 "old" true
                    (store compliant_envelope Res0)
                    (store compliant_both Res0) eq_refl));
      reflexivity.
Defined.

(** Two identifiers that differ in their last character. *)
Lemma requests_identify_the_call_witness :
  "id-1" <> "id-2" /\
  requests (exec service (pullHost 1 "id-1" 7) 0)
    <> requests (exec (scripted failed_exchange) (pullHost 2 "id-2" 9) 5) /\
  requests (exec service (pullCorridor 1 "id-1" "old") 0)
    <> requests (exec (scripted failed_exchange)
                   (pullCorridor 2 "id-2" "older") 5) /\
  requests (exec service (pullHost 1 "id-1" 7) 0)
    <> requests (exec (scripted failed_exchange)
                   (pullCorridor 2 "id-2" "older") 5).
Proof.
  destruct (requests_identify_the_call Req0 Res0 service
              (scripted failed_exchange) 0 5 1 2 "id-1" "id-2"
              7 9 "old" "older") as (Hh & Hc & Hx).
  split; [discriminate|].
  split; [apply Hh; discriminate|].
  split; [apply Hc; discriminate|exact Hx].
Defined.

(** A compliant answer with both payloads, then a non-compliant one that
    is loaded too: the same identifier twice, the same variable twice. *)
Lemma false_return_keeps_earlier_payload_witness :
  (answer replaying then_non_compliant (host_request Req0 "host-42") Res0
     = (true, store compliant_both Res0) /\
   value (exec replaying
            (bind (pullHost 3 "host-42" 7)
                  (fun p => pullHost (self p) "host-42" (out p)))
            then_non_compliant)
     = {| returned := false; out := 215; self := 3 |})
  /\
  (answer replaying then_non_compliant (corridor_request Req0 "sess-7") Res0
     = (true, store compliant_both Res0) /\
   value (exec replaying
            (bind (pullCorridor 3 "sess-7" "old")
                  (fun p => pullCorridor (self p) "sess-7" (out p)))
            then_non_compliant)
     = {| returned := false; out := "corridor-A"; self := 3 |}).
Proof.
  destruct (false_return_keeps_earlier_payload Req0 Res0 replaying
              then_non_compliant 3 "host-42" "host-42" 7 "old"
              (store compliant_both Res0) eq_refl) as [Hh _].
  destruct (false_return_keeps_earlier_payload Req0 Res0 replaying
              then_non_compliant 3 "sess-7" "sess-7" 7 "old"
              (store compliant_both Res0) eq_refl) as [_ Hc].
  split; (split; [reflexivity|]).
  - apply Hh; reflexivity.
  - apply Hc; reflexivity.
Defined.

(** A failed exchange, then a compliant answer to the retry. *)
Lemma retry_after_false_is_a_fresh_call_witness :
  (returned (value (exec replaying (pullHost 3 "host-42" 7) then_compliant))
     = false /\
   value (exec replaying
            (bind (pullHost 3 "host-42" 7)
                  (fun p => pullHost (self p) "host-42" (out p)))
            then_compliant)
     = {| returned := true; out := 215; self := 3 |})
  /\
  (returned (value (exec replaying (pullCorridor 3 "sess-7" "old")
                      then_compliant))
     = false /\
   value (exec replaying
            (bind (pullCorridor 3 "sess-7" "old")
                  (fun p => pullCorridor (self p) "sess-7" (out p)))
            then_compliant)
     = {| returned := true; out := "corridor-A"; self := 3 |}).
Proof.
  destruct (retry_after_false_is_a_fresh_call Req0 Res0 replaying
              then_compliant 3 "host-42" "host-42" 7 "old") as [Hh _].
  destruct (retry_after_false_is_a_fresh_call Req0 Res0 replaying
              then_compliant 3 "sess-7" "sess-7" 7 "old") as [_ Hc].
  split; (split; [reflexivity|]).
  - etransitivity; [apply Hh; reflexivity | reflexivity].
  - etransitivity; [apply Hc; reflexivity | reflexivity].
Defined.
